(** * Rotterdam Traffic Predictor: the decision logic of [app.py]

    The dashboard script has three pieces of logic of its own: the fixed
    threshold classifier [get_traffic_status], the two categorical encodings
    (the [day_mapping] dictionary and the fitted label encoder [le_det]) and
    the prediction pipeline run on a button press (clipping, classification
    and the formatting of the score cards).  They are embedded here and the
    properties the specification states about them are proved.

    Numbers.  The predictors hand back finite binary64 values and the clipping
    step may replace them by the integer [0].  Every such value is a rational
    number, the comparisons the script performs on them are the exact
    comparisons of the rationals, and the thresholds 5, 15, 20 and 100 are
    exactly representable.  The readings are therefore modelled as [Q], which
    keeps every definition executable.  Not-a-number and the infinities are
    outside this model. *)

From Stdlib Require Import QArith Qround Qabs ZArith String Ascii List Lia Lqa.
From Stdlib Require Import DecimalString Qminmax.
From stdpp Require Import base option list strings gmap.

Local Open Scope string_scope.

(** ** Comparisons on readings *)

Module Num.

(** Python's [x < y] and [x <= y] on two finite numbers. *)
Definition ltb (x y : Q) : bool :=
  match Qcompare x y with Lt => true | _ => false end.

Definition leb (x y : Q) : bool :=
  match Qcompare x y with Gt => false | _ => true end.

End Num.

(** ** The status classifier *)

(** The two local variables [status] and [color] of [get_traffic_status]. *)
Record locals := Locals { status : string; color : string }.

(** [status = "Unknown"; color = "grey"] *)
Definition init_locals : locals := Locals "Unknown" "grey".

(** The [if / elif / else] on the occupancy.  The chained comparison
    [5 <= occupancy <= 15] is Python's [5 <= occupancy and occupancy <= 15]. *)
Definition base_rules (occupancy : Q) (st : locals) : locals :=
  if Num.ltb occupancy 5 then Locals "LANCAR 🟢" "green"
  else if Num.leb 5 occupancy && Num.leb occupancy 15
       then Locals "PADAT MERAYAP 🟠" "orange"
       else Locals "MACET 🔴" "red".

(** The second [if], which has no [else]: the locals are kept otherwise. *)
Definition override (flow occupancy : Q) (st : locals) : locals :=
  if Num.ltb flow 100 && Num.ltb 20 occupancy
  then Locals "MACET TOTAL (GRIDLOCK) ⚫" "black"
  else st.

Definition get_traffic_status (flow occupancy : Q) : string * string :=
  let st := init_locals in
  let st := base_rules occupancy st in
  let st := override flow occupancy st in
  (status st, color st).

(** The tiers of the specification and the label and colour each one stands
    for in the script. *)
Inductive TrafficStatus := FreeFlow | Congested | Jammed | GridlockTotal.

Definition tier_label (t : TrafficStatus) : string :=
  match t with
  | FreeFlow => "LANCAR 🟢"
  | Congested => "PADAT MERAYAP 🟠"
  | Jammed => "MACET 🔴"
  | GridlockTotal => "MACET TOTAL (GRIDLOCK) ⚫"
  end.

Definition tier_color (t : TrafficStatus) : string :=
  match t with
  | FreeFlow => "green"
  | Congested => "orange"
  | Jammed => "red"
  | GridlockTotal => "black"
  end.

Definition all_tiers : list TrafficStatus :=
  [FreeFlow; Congested; Jammed; GridlockTotal].

(** The pair a tier stands for. *)
Definition tier_pair (t : TrafficStatus) : string * string :=
  (tier_label t, tier_color t).

(** The binary64 number the literal [20.01] denotes. *)
Definition float_20_01 : Q := 5632314283980227 # 281474976710656.

(** The tier a returned pair denotes: the one whose label is its first
    component. *)
Definition returns_tier (r : string * string) (t : TrafficStatus) : Prop :=
  fst r = tier_label t.

(** ** Errors and the effect monad of the script *)

(** [KeyError] is what indexing [day_mapping] raises on a missing key,
    [IndexError] what indexing a sequence raises out of range;
    [UnknownDetectorError] is the specification's name for what the label
    encoder raises on a label it was not fitted on. *)
Inductive error :=
  | KeyError (key : string)
  | IndexError
  | UnknownDetectorError (label : string).

(** Modelled from the spec: the fitted label encoder [le_det], unpickled from
    [models/label_encoder_detid.pkl], is not part of the sources.  Its state
    is the ordered enumeration of the detector ids seen in training. *)
Record LabelEncoder := { classes_ : list string }.

(** A computation of the script may read and write the encoder object and may
    raise. *)
Definition M (A : Type) : Type := LabelEncoder -> LabelEncoder * (error + A).

Definition ret {A} (a : A) : M A := fun le => (le, inr a).
Definition raise {A} (e : error) : M A := fun le => (le, inl e).
Definition bind {A B} (m : M A) (k : A -> M B) : M B :=
  fun le =>
    match m le with
    | (le', inl e) => (le', inl e)
    | (le', inr a) => k a le'
    end.
Definition get_encoder : M LabelEncoder := fun le => (le, inr le).

#[global] Instance M_ret : MRet M := @ret.
#[global] Instance M_bind : MBind M := fun A B k m => bind m k.

(** ** The categorical encodings *)

(** A dictionary display inserts its items from left to right. *)
Definition dict_literal (items : list (string * Z)) : gmap string Z :=
  fold_left (fun m kv => <[fst kv := snd kv]> m) items ∅.

Definition day_mapping : gmap string Z :=
  dict_literal
    [("Senin", 0%Z); ("Selasa", 1%Z); ("Rabu", 2%Z); ("Kamis", 3%Z);
     ("Jumat", 4%Z); ("Sabtu", 5%Z); ("Minggu", 6%Z)].

(** The options of the day select box. *)
Definition day_options : list string :=
  ["Senin"; "Selasa"; "Rabu"; "Kamis"; "Jumat"; "Sabtu"; "Minggu"].

(** [day_mapping[day_input]] *)
Definition day_code_of (day_input : string) : M Z :=
  match day_mapping !! day_input with
  | Some c => mret c
  | None => raise (KeyError day_input)
  end.

(** The seven day symbols of the specification, the option each one is in the
    select box, and its position in the week. *)
Inductive DaySymbol :=
  Monday | Tuesday | Wednesday | Thursday | Friday | Saturday | Sunday.

Definition all_days : list DaySymbol :=
  [Monday; Tuesday; Wednesday; Thursday; Friday; Saturday; Sunday].

Definition day_name (d : DaySymbol) : string :=
  match d with
  | Monday => "Senin" | Tuesday => "Selasa" | Wednesday => "Rabu"
  | Thursday => "Kamis" | Friday => "Jumat" | Saturday => "Sabtu"
  | Sunday => "Minggu"
  end.

Definition day_ordinal (d : DaySymbol) : Z :=
  match d with
  | Monday => 0 | Tuesday => 1 | Wednesday => 2 | Thursday => 3
  | Friday => 4 | Saturday => 5 | Sunday => 6
  end.

(** Position of the first occurrence of [x] in [l]. *)
Fixpoint index_of (x : string) (l : list string) : option nat :=
  match l with
  | [] => None
  | y :: l' => if String.eqb x y then Some 0%nat else S <$> index_of x l'
  end.

(** Modelled from the spec: [le_det.transform], the encoder's
    [detectorToCode] applied to each element of a sequence.  Each id is looked
    up in the enumeration; an id absent from it fails with
    [UnknownDetectorError]; the encoder is left as it was. *)
Fixpoint transform (ys : list string) : M (list Z) :=
  match ys with
  | [] => mret []
  | y :: ys' =>
      le ← get_encoder;
      match index_of y (classes_ le) with
      | None => raise (UnknownDetectorError y)
      | Some i => cs ← transform ys'; mret (Z.of_nat i :: cs)
      end
  end.

(** [detector_list = list(le_det.classes_)] *)
Definition detector_list : M (list string) :=
  le ← get_encoder; mret (classes_ le).

(** [le_det.transform([det_input])[0]] *)
Definition det_code_of (det_input : string) : M Z :=
  cs ← transform [det_input];
  match cs with
  | c :: _ => mret c
  | [] => raise IndexError
  end.

(** Modelled from the spec: decoding, the reverse mapping of the encoder, is
    not called by the script.  A code stands for the entry of the ordered
    class list at that position. *)
Definition decode (classes : list string) (code : Z) : option string :=
  if (code <? 0)%Z then None else classes !! Z.to_nat code.

(** ** Conversions to text *)

(** [str] of a Python integer. *)
Definition str_of_int (z : Z) : string := NilZero.string_of_int (Z.to_int z).

(** [int(x)]: the integer part, rounding toward zero. *)
Definition int_of (x : Q) : Z := Z.quot (Qnum x) (Zpos (Qden x)).

(** Rounding to the nearest integer, a tie going to the even neighbour: how
    the [f] presentation type rounds the exact value it is given. *)
Definition round_half_even (x : Q) : Z :=
  let f := Qfloor x in
  match Qcompare (x - inject_Z f) (1 # 2) with
  | Lt => f
  | Gt => (f + 1)%Z
  | Eq => if Z.even f then f else (f + 1)%Z
  end.

Fixpoint zeros (n : nat) : string :=
  match n with
  | O => ""
  | S k => "0" +:+ zeros k
  end.

Definition zfill (width : nat) (s : string) : string :=
  zeros (width - String.length s) +:+ s.

(** [format(x, '.pf')]: an optional sign, the integer digits, and [p] digits
    after the point. *)
Definition format_fixed (p : nat) (x : Q) : string :=
  let scale := (10 ^ Z.of_nat p)%Z in
  let n := round_half_even (Qabs x * inject_Z scale) in
  let sign := if Num.ltb x 0 then "-" else "" in
  let digits := str_of_int (n / scale) in
  match p with
  | O => sign +:+ digits
  | S _ => sign +:+ digits +:+ "." +:+ zfill p (str_of_int (n mod scale))
  end.

(** ** The prediction pipeline *)

(** The one-row data frame handed to the regressors. *)
Record features := { hour : Z; day_of_week : Z; detid_code : Z }.

(** [model.predict(input_data)[0]] of a loaded regressor. *)
Definition predictor : Type := features -> Q.

(** [max(0, x)]: the built-in keeps its first argument unless a later one is
    strictly greater. *)
Definition clip (x : Q) : Q := if Num.ltb 0 x then x else 0.

(** The pair handed to the classifier. *)
Definition clipped_readings (model_flow model_occ : predictor)
    (input_data : features) : Q * Q :=
  let pred_flow := model_flow input_data in
  let pred_occ := model_occ input_data in
  let pred_flow := clip pred_flow in
  let pred_occ := clip pred_occ in
  (pred_flow, pred_occ).

(** What a run puts on the page: the three score cards and the status box. *)
Record report := {
  m1 : string;
  m2 : string;
  m3 : string;
  status_text : string;
  status_color : string
}.

Definition predict (model_flow model_occ : predictor) (model_choice : string)
    (input_data : features) : report :=
  let '(pred_flow, pred_occ) :=
    clipped_readings model_flow model_occ input_data in
  let '(status_text, status_color) := get_traffic_status pred_flow pred_occ in
  {| m1 := str_of_int (int_of pred_flow) +:+ " kendaraan";
     m2 := format_fixed 2 pred_occ +:+ " %";
     m3 := model_choice;
     status_text := status_text;
     status_color := status_color |}.

Section Script.

(** [load_model]: the pair of regressors stored under a model name, for a
    folder in which the files of every model are present.  What a missing
    file does to a run is the subject of [Loader.script] below. *)
Variable load_model : string -> predictor * predictor.

(** One run of the script, top to bottom, on the values of its widgets.  The
    encodings of the side bar are computed on every run; the prediction only
    when the button was pressed. *)
Definition run (model_choice day_input : string) (hour_input : Z)
    (det_input : string) (predict_btn : bool) : M (option report) :=
  day_code ← day_code_of day_input;
  det_code ← det_code_of det_input;
  if predict_btn then
    let '(model_flow, model_occ) := load_model model_choice in
    let input_data :=
      {| hour := hour_input; day_of_week := day_code;
         detid_code := det_code |} in
    mret (Some (predict model_flow model_occ model_choice input_data))
  else mret None.

End Script.

(** ** The end-to-end scenario *)

(** A stand-in for [load_model] whose regressors answer 80 and 22 whatever
    they are asked, and an encoder fitted on two detectors. *)
Definition mock_load_model (model_name : string) : predictor * predictor :=
  (fun _ => 80%Q, fun _ => 22%Q).

Definition mock_encoder : LabelEncoder :=
  {| classes_ := ["RDM-11"; "RDM-12"] |}.

(** ** Severity and the interpretation paragraph *)

(** The position of a tier on the scale from free flow to gridlock. *)
Definition severity (t : TrafficStatus) : nat :=
  match t with
  | FreeFlow => 0
  | Congested => 1
  | Jammed => 2
  | GridlockTotal => 3
  end.

Definition newline : string := String (ascii_of_nat 10) EmptyString.

(** The text of the [st.info] box under the status: a formatted string
    literal over the widget values and the clipped occupancy, which it shows
    with one decimal. *)
Definition interpretation (day_input : string) (hour_input : Z)
    (det_input model_choice : string) (pred_occ : Q) : string :=
  newline +:+ "            💡 **Interpretasi:**" +:+
  newline +:+ "            Pada hari **" +:+ day_input +:+ "** jam **" +:+
  str_of_int hour_input +:+ ":00** di lokasi **" +:+ det_input +:+ "**, " +:+
  newline +:+ "            model **" +:+ model_choice +:+
  "** memprediksi kepadatan jalan sebesar **" +:+ format_fixed 1 pred_occ +:+
  "%**." +:+ newline +:+ "            ".

(** ** Loading the artifacts and the script from its first line *)

(** The options of the model select box. *)
Definition model_options : list string :=
  ["Extra Trees"; "XGBoost"; "LightGBM"; "Polynomial Reg"].

Module Loader.

(** What [joblib.load] raises on a path with no file. *)
Inductive load_error := FileNotFoundError (path : string).

(** The pickled objects a run can reach, by path: label encoders and
    regressors.  A file holding an object of the other kind is outside this
    model. *)
Record models_dir := {
  encoder_files : gmap string LabelEncoder;
  regressor_files : gmap string predictor
}.

Definition joblib_load {A} (files : gmap string A) (path : string)
  : load_error + A :=
  match files !! path with
  | Some a => inr a
  | None => inl (FileNotFoundError path)
  end.

Definition encoder_path : string := "models/label_encoder_detid.pkl".

(** The resource cache of the framework only remembers what a loader
    returned; on an unchanged folder a cached call and a fresh one agree, so
    the loaders are modelled without it. *)
Definition load_resources (dir : models_dir) : load_error + LabelEncoder :=
  let encoder := joblib_load (encoder_files dir) encoder_path in
  encoder.

(** [model_name.replace(" ", "")] *)
Fixpoint remove_spaces (s : string) : string :=
  match s with
  | EmptyString => EmptyString
  | String c s' =>
      if Ascii.eqb c " " then remove_spaces s' else String c (remove_spaces s')
  end.

Definition flow_path (model_name : string) : string :=
  "models/" +:+ remove_spaces model_name +:+ "_flow.pkl".

Definition occ_path (model_name : string) : string :=
  "models/" +:+ remove_spaces model_name +:+ "_occ.pkl".

(** The flow regressor is loaded first; a missing file ends the call. *)
Definition load_model (dir : models_dir) (model_name : string)
  : load_error + predictor * predictor :=
  match joblib_load (regressor_files dir) (flow_path model_name) with
  | inl e => inl e
  | inr model_flow =>
      match joblib_load (regressor_files dir) (occ_path model_name) with
      | inl e => inl e
      | inr model_occ => inr (model_flow, model_occ)
      end
  end.

(** An exception that leaves the script: from the encodings of the side bar
    or from the loading of the regressors. *)
Inductive exception :=
  | Encoding (e : error)
  | Loading (e : load_error).

(** How a run of the script ends: stopped by [st.stop()] under an error
    banner, by an exception nobody catches, or with the page drawn. *)
Inductive outcome :=
  | Stopped (banner : string)
  | Raised (e : exception)
  | Page (r : option report).

Definition missing_models_banner : string :=
  "File model tidak ditemukan. Pastikan Anda sudah menjalankan TAHAP 1 dan folder 'models' tersedia.".

(** The script from its first line.  Only the loading of the encoder sits in
    the [try] block. *)
Definition script (dir : models_dir) (model_choice day_input : string)
    (hour_input : Z) (det_input : string) (predict_btn : bool) : outcome :=
  match load_resources dir with
  | inl _ => Stopped missing_models_banner
  | inr le_det =>
      let encodings : M (Z * Z) :=
        day_code ← day_code_of day_input;
        det_code ← det_code_of det_input;
        mret (day_code, det_code) in
      match encodings le_det with
      | (_, inl e) => Raised (Encoding e)
      | (_, inr (day_code, det_code)) =>
          if predict_btn then
            match load_model dir model_choice with
            | inl e => Raised (Loading e)
            | inr (model_flow, model_occ) =>
                let input_data :=
                  {| hour := hour_input; day_of_week := day_code;
                     detid_code := det_code |} in
                Page (Some (predict model_flow model_occ model_choice
                              input_data))
            end
          else Page None
      end
  end.

(** A folder holding the encoder of the scenario and the two regressors of
    the first model choice only. *)
Definition mock_dir : models_dir :=
  {| encoder_files := {[ encoder_path := mock_encoder ]};
     regressor_files :=
       <[ "models/ExtraTrees_flow.pkl" := (fun _ => 80%Q) : predictor ]>
         {[ "models/ExtraTrees_occ.pkl" := (fun _ => 22%Q) : predictor ]} |}.

End Loader.

(** * Properties *)

(** ** Comparisons *)

Module NumFacts.

Lemma ltb_lt x y : Num.ltb x y = true <-> (x < y)%Q.
Proof.
  unfold Num.ltb. rewrite Qlt_alt.
  destruct (Qcompare x y); split; congruence.
Qed.

Lemma leb_le x y : Num.leb x y = true <-> (x <= y)%Q.
Proof.
  unfold Num.leb. rewrite Qle_alt.
  destruct (Qcompare x y); split; congruence.
Qed.

Lemma ltb_ge x y : Num.ltb x y = false <-> (y <= x)%Q.
Proof.
  rewrite <- not_true_iff_false, ltb_lt. split.
  - apply Qnot_lt_le.
  - apply Qle_not_lt.
Qed.

Lemma leb_gt x y : Num.leb x y = false <-> (y < x)%Q.
Proof.
  rewrite <- not_true_iff_false, leb_le. split.
  - apply Qnot_le_lt.
  - apply Qlt_not_le.
Qed.

(** Both comparisons as reflection views, for case analysis in proofs. *)
Lemma ltb_spec x y : BoolSpec (x < y)%Q (y <= x)%Q (Num.ltb x y).
Proof.
  destruct (Num.ltb x y) eqn:E; constructor.
  - now apply ltb_lt.
  - now apply ltb_ge.
Qed.

Lemma leb_spec x y : BoolSpec (x <= y)%Q (y < x)%Q (Num.leb x y).
Proof.
  destruct (Num.leb x y) eqn:E; constructor.
  - now apply leb_le.
  - now apply leb_gt.
Qed.

(** Two presentations of one rational compare alike. *)
#[global] Instance ltb_proper : Proper (Qeq ==> Qeq ==> eq) Num.ltb.
Proof. intros x x' Hx y y' Hy. unfold Num.ltb. now rewrite Hx, Hy. Qed.

#[global] Instance leb_proper : Proper (Qeq ==> Qeq ==> eq) Num.leb.
Proof. intros x x' Hx y y' Hy. unfold Num.leb. now rewrite Hx, Hy. Qed.

(** The same, in the shape rewriting under a conditional needs. *)
Lemma ltb_eq_l x x' y : (x == x')%Q -> Num.ltb x y = Num.ltb x' y.
Proof. intros H. now rewrite H. Qed.

Lemma ltb_eq_r x y y' : (y == y')%Q -> Num.ltb x y = Num.ltb x y'.
Proof. intros H. now rewrite H. Qed.

Lemma leb_eq_l x x' y : (x == x')%Q -> Num.leb x y = Num.leb x' y.
Proof. intros H. now rewrite H. Qed.

Lemma leb_eq_r x y y' : (y == y')%Q -> Num.leb x y = Num.leb x y'.
Proof. intros H. now rewrite H. Qed.

End NumFacts.

(** Case analysis on every comparison the classifier performs. *)
Ltac cases_on_readings :=
  repeat match goal with
    | |- context [Num.ltb ?x ?y] => destruct (NumFacts.ltb_spec x y)
    | |- context [Num.leb ?x ?y] => destruct (NumFacts.leb_spec x y)
    end.

(** ** The classifier *)

Lemma tier_label_inj t t' : tier_label t = tier_label t' -> t = t'.
Proof. destruct t, t'; simpl; intros H; try reflexivity; discriminate H. Qed.

#[global] Instance get_traffic_status_proper :
  Proper (Qeq ==> Qeq ==> eq) get_traffic_status.
Proof.
  intros f f' Hf o o' Ho.
  unfold get_traffic_status, override, base_rules.
  rewrite (NumFacts.ltb_eq_l f f' _ Hf).
  rewrite (NumFacts.ltb_eq_r _ o o' Ho), (NumFacts.ltb_eq_l o o' _ Ho).
  rewrite (NumFacts.leb_eq_r _ o o' Ho), (NumFacts.leb_eq_l o o' _ Ho).
  reflexivity.
Qed.

(** With the override out of the way the result is what the occupancy rules
    assigned. *)
Lemma get_traffic_status_no_override flow o :
  (100 <= flow)%Q ->
  get_traffic_status flow o =
    (status (base_rules o init_locals), color (base_rules o init_locals)).
Proof.
  intros H. unfold get_traffic_status, override.
  destruct (NumFacts.ltb_spec flow 100) as [Hlt|_]; [lra | reflexivity].
Qed.

(** C1: for every flow of at least 100 and every occupancy [o],
    [get_traffic_status flow o] returns the FreeFlow tier if and only if
    [o < 5], the Congested tier if and only if [5 <= o <= 15], and the Jammed
    tier if and only if [o > 15]. *)
Theorem C1_occupancy_tiers (flow o : Q) :
  (100 <= flow)%Q ->
  (returns_tier (get_traffic_status flow o) FreeFlow <-> (o < 5)%Q) /\
  (returns_tier (get_traffic_status flow o) Congested <->
     (5 <= o)%Q /\ (o <= 15)%Q) /\
  (returns_tier (get_traffic_status flow o) Jammed <-> (15 < o)%Q).
Proof.
  intros Hflow. rewrite (get_traffic_status_no_override _ _ Hflow).
  unfold returns_tier, base_rules.
  cases_on_readings; simpl; repeat split; intros;
    try congruence; try lra;
    match goal with H : _ /\ _ |- _ => destruct H; lra end.

Qed.

Lemma C1_occupancy_tiers_witness :
  (100 <= 150)%Q /\
  ((returns_tier (get_traffic_status 150 3) FreeFlow <-> (3 < 5)%Q) /\
   (returns_tier (get_traffic_status 150 3) Congested <->
      (5 <= 3)%Q /\ (3 <= 15)%Q) /\
   (returns_tier (get_traffic_status 150 3) Jammed <-> (15 < 3)%Q)).
Proof.
  assert (H : (100 <= 150)%Q) by (unfold Qle; simpl; lia).
  split; [exact H | exact (C1_occupancy_tiers 150 3 H)].
Defined.

(** The override does not look at the locals it replaces. *)
Lemma override_fires flow o st :
  (flow < 100)%Q -> (20 < o)%Q ->
  override flow o st = Locals (tier_label GridlockTotal) (tier_color GridlockTotal).
Proof.
  intros Hf Ho. unfold override.
  apply NumFacts.ltb_lt in Hf, Ho. now rewrite Hf, Ho.
Qed.

(** C2: for every flow below 100 and every occupancy above 20,
    [get_traffic_status] returns the GridlockTotal tier, whatever the
    occupancy rules had assigned before. *)
Theorem C2_gridlock_override (flow o : Q) :
  (flow < 100)%Q -> (20 < o)%Q ->
  get_traffic_status flow o = (tier_label GridlockTotal, tier_color GridlockTotal) /\
  returns_tier (get_traffic_status flow o) GridlockTotal /\
  status (override flow o (base_rules o init_locals)) <>
    status (base_rules o init_locals).
Proof.
  intros Hf Ho. unfold returns_tier, get_traffic_status.
  rewrite (override_fires _ _ _ Hf Ho). repeat split.
  unfold base_rules. cases_on_readings; simpl; try discriminate; lra.
Qed.

Lemma C2_gridlock_override_witness :
  get_traffic_status 50 25 = (tier_label GridlockTotal, tier_color GridlockTotal) /\
  returns_tier (get_traffic_status 50 25) GridlockTotal /\
  status (override 50 25 (base_rules 25 init_locals)) <>
    status (base_rules 25 init_locals).
Proof.
  apply (C2_gridlock_override 50 25); unfold Qlt; simpl; lia.
Defined.

(** C3: at the thresholds, [get_traffic_status 150 5] and
    [get_traffic_status 150 15] are Congested, [get_traffic_status 50 20] is
    Jammed (an occupancy of exactly 20 does not trigger the override), and
    [get_traffic_status 50 20.01] is GridlockTotal, for the decimal 20.01 as
    for the floating-point number nearest to it. *)
Theorem C3_boundaries :
  returns_tier (get_traffic_status 150 5) Congested /\
  returns_tier (get_traffic_status 150 15) Congested /\
  returns_tier (get_traffic_status 50 20) Jammed /\
  returns_tier (get_traffic_status 50 (2001 # 100)) GridlockTotal /\
  returns_tier (get_traffic_status 50 float_20_01) GridlockTotal.
Proof. unfold returns_tier. repeat split; vm_compute; reflexivity. Qed.

Lemma get_traffic_status_tier flow o :
  exists t, get_traffic_status flow o = tier_pair t.
Proof.
  unfold get_traffic_status, override, base_rules.
  cases_on_readings; simpl;
    first [ now exists FreeFlow | now exists Congested
          | now exists Jammed | now exists GridlockTotal ].
Qed.

(** C6: for every input pair the result of [get_traffic_status] denotes one
    tier and no other, and the colour returned is the one this tier has in
    the fixed table FreeFlow -> green, Congested -> orange, Jammed -> red,
    GridlockTotal -> black. *)
Theorem C6_color_of_tier (flow o : Q) :
  (exists t, (forall t', returns_tier (get_traffic_status flow o) t' <-> t' = t) /\
             snd (get_traffic_status flow o) = tier_color t) /\
  tier_color FreeFlow = "green" /\ tier_color Congested = "orange" /\
  tier_color Jammed = "red" /\ tier_color GridlockTotal = "black".
Proof.
  split; [| repeat split].
  destruct (get_traffic_status_tier flow o) as [t Ht].
  exists t. rewrite Ht. split; [| reflexivity].
  intros t'. unfold returns_tier. simpl. split.
  - intros H. symmetry. now apply tier_label_inj.
  - now intros ->.
Qed.

(** C10: for every input pair [get_traffic_status] returns one of exactly four
    status/colour pairs, each of which is returned for some input; the initial
    values [("Unknown", "grey")] are never returned, since the occupancy rules
    overwrite the locals in each of their three branches. *)
Theorem C10_four_results :
  (forall flow o, get_traffic_status flow o ∈ tier_pair <$> all_tiers) /\
  (forall t, exists flow o, get_traffic_status flow o = tier_pair t) /\
  NoDup (tier_pair <$> all_tiers) /\
  (forall flow o,
     get_traffic_status flow o <> (status init_locals, color init_locals)) /\
  (forall o st, exists t,
     base_rules o st = Locals (tier_label t) (tier_color t)).
Proof.
  split; [| split; [| split; [| split]]].
  - intros flow o. destruct (get_traffic_status_tier flow o) as [t ->].
    apply list_elem_of_fmap_2. destruct t; set_solver.
  - intros [].
    + now exists 150%Q, 3%Q.
    + now exists 150%Q, 10%Q.
    + now exists 150%Q, 18%Q.
    + now exists 50%Q, 25%Q.
  - refine (bool_decide_unpack _ _). vm_compute. exact I.
  - intros flow o. destruct (get_traffic_status_tier flow o) as [t ->].
    destruct t; discriminate.
  - intros o st. unfold base_rules.
    cases_on_readings; simpl;
      first [ now exists FreeFlow | now exists Congested | now exists Jammed ].
Qed.

(** ** The label encoder *)

Lemma index_of_None x l : index_of x l = None <-> x ∉ l.
Proof.
  induction l as [|y l IH]; simpl.
  - split; [intros _; apply not_elem_of_nil | reflexivity].
  - rewrite not_elem_of_cons. destruct (String.eqb_spec x y) as [->|Hne].
    + split; [discriminate | intros [H _]; now destruct H].
    + destruct (index_of x l); simpl.
      * split; [discriminate | intros [_ H]; now apply IH in H].
      * split; [intros _; split; [assumption | now apply IH] | reflexivity].
Qed.

Lemma index_of_lookup x l i : index_of x l = Some i -> l !! i = Some x.
Proof.
  revert i. induction l as [|y l IH]; simpl; intros i H; [discriminate|].
  destruct (String.eqb_spec x y) as [->|Hne].
  - now inversion H.
  - destruct (index_of x l) as [j|]; simpl in H; [|discriminate].
    inversion H; subst. simpl. now apply IH.
Qed.

Lemma index_of_elem x l : x ∈ l -> exists i, index_of x l = Some i.
Proof.
  intros H. destruct (index_of x l) as [i|] eqn:E; [now exists i|].
  apply index_of_None in E. contradiction.
Qed.

(** Unfolding of the monad operations on a given encoder. *)
Ltac step_M :=
  unfold mbind, M_bind, bind, mret, M_ret, ret, raise, get_encoder; simpl.

(** Encoding reads the encoder and never writes it. *)
Lemma transform_encoder ys le : (transform ys le).1 = le.
Proof.
  induction ys as [|y ys IH]; [reflexivity|].
  simpl. step_M. destruct (index_of y (classes_ le)); [|reflexivity].
  destruct (transform ys le) as [le' [e|cs]]; simpl in *; assumption.
Qed.

Lemma det_code_of_known d le i :
  index_of d (classes_ le) = Some i -> det_code_of d le = (le, inr (Z.of_nat i)).
Proof. intros H. unfold det_code_of. simpl. step_M. now rewrite H. Qed.

Lemma det_code_of_unknown d le :
  index_of d (classes_ le) = None ->
  det_code_of d le = (le, inl (UnknownDetectorError d)).
Proof. intros H. unfold det_code_of. simpl. step_M. now rewrite H. Qed.

Lemma det_code_of_encoder d le : (det_code_of d le).1 = le.
Proof.
  destruct (index_of d (classes_ le)) as [i|] eqn:E.
  - now rewrite (det_code_of_known _ _ _ E).
  - now rewrite (det_code_of_unknown _ _ E).
Qed.

(** C7: encoding a detector id that is absent from the known enumeration
    raises [UnknownDetectorError] instead of returning a code, and encoding,
    of known and unknown ids alike, leaves the encoder as it was. *)
Theorem C7_unknown_detector (le : LabelEncoder) (d : string) :
  d ∉ classes_ le ->
  det_code_of d le = (le, inl (UnknownDetectorError d)) /\
  transform [d] le = (le, inl (UnknownDetectorError d)) /\
  (forall ys, (transform ys le).1 = le) /\
  (forall d', (det_code_of d' le).1 = le).
Proof.
  intros H. apply index_of_None in H. repeat split.
  - now apply det_code_of_unknown.
  - simpl. step_M. now rewrite H.
  - intros ys. apply transform_encoder.
  - intros d'. apply det_code_of_encoder.
Qed.

Lemma C7_unknown_detector_witness :
  let le := {| classes_ := ["RDM-11"; "RDM-12"] |} in
  det_code_of "RDM-99" le = (le, inl (UnknownDetectorError "RDM-99")) /\
  transform ["RDM-99"] le = (le, inl (UnknownDetectorError "RDM-99")) /\
  (forall ys, (transform ys le).1 = le) /\
  (forall d', (det_code_of d' le).1 = le).
Proof.
  intros le. apply (C7_unknown_detector le "RDM-99").
  refine (bool_decide_unpack _ _). vm_compute. exact I.
Defined.

(** C8: for every detector id [d] of the known enumeration, encoding [d]
    succeeds and the code it yields, looked up in the ordered class list of
    the encoder, gives [d] back. *)
Theorem C8_encoding_round_trip (le : LabelEncoder) (d : string) :
  d ∈ classes_ le ->
  exists c classes,
    det_code_of d le = (le, inr c) /\
    detector_list le = (le, inr classes) /\
    decode classes c = Some d.
Proof.
  intros H. destruct (index_of_elem _ _ H) as [i Hi].
  exists (Z.of_nat i), (classes_ le). repeat split.
  - now apply det_code_of_known.
  - unfold decode. destruct (Z.ltb_spec (Z.of_nat i) 0); [lia|].
    rewrite Nat2Z.id. now apply index_of_lookup.
Qed.

Lemma C8_encoding_round_trip_witness :
  let le := {| classes_ := ["RDM-11"; "RDM-12"] |} in
  exists c classes,
    det_code_of "RDM-12" le = (le, inr c) /\
    detector_list le = (le, inr classes) /\
    decode classes c = Some "RDM-12".
Proof.
  intros le. apply (C8_encoding_round_trip le "RDM-12").
  refine (bool_decide_unpack _ _). vm_compute. exact I.
Defined.

(** ** The day table *)

(** C9: the day encoding is a fixed table of exactly 7 entries, whose keys are
    the 7 options of the day selector, Monday to Sunday in this order, with
    the codes 0 to 6 in this order; looking up any of the 7 day symbols
    succeeds, raises no error and leaves the encoder alone. *)
Theorem C9_day_table :
  size day_mapping = 7%nat /\
  day_options = day_name <$> all_days /\
  dom day_mapping = list_to_set day_options /\
  day_ordinal <$> all_days = [0; 1; 2; 3; 4; 5; 6]%Z /\
  (forall d : DaySymbol, d ∈ all_days) /\
  (forall d : DaySymbol, day_mapping !! day_name d = Some (day_ordinal d)) /\
  (forall (d : DaySymbol) (le : LabelEncoder),
     day_code_of (day_name d) le = (le, inr (day_ordinal d))).
Proof.
  split; [| split; [| split; [| split; [| split; [| split]]]]].
  - vm_compute. reflexivity.
  - reflexivity.
  - vm_compute. reflexivity.
  - reflexivity.
  - intros []; unfold all_days; set_solver.
  - intros []; vm_compute; reflexivity.
  - intros [] le; vm_compute; reflexivity.
Qed.

(** ** Presentations of one rational *)

(** A reading may come as any fraction denoting its value; what the script
    shows does not depend on which. *)

Lemma int_of_proper x y : (x == y)%Q -> int_of x = int_of y.
Proof.
  destruct x as [a b], y as [c d]. unfold Qeq, int_of. simpl. intros H.
  rewrite <- (Z.quot_mul_cancel_r a (Z.pos b) (Z.pos d)) by lia.
  rewrite <- (Z.quot_mul_cancel_r c (Z.pos d) (Z.pos b)) by lia.
  rewrite H. f_equal. lia.
Qed.

Lemma round_half_even_proper x y :
  (x == y)%Q -> round_half_even x = round_half_even y.
Proof.
  intros H. unfold round_half_even.
  rewrite (Qfloor_comp _ _ H).
  assert (E : (x - inject_Z (Qfloor y) ?= 1 # 2)%Q
            = (y - inject_Z (Qfloor y) ?= 1 # 2)%Q) by now rewrite H.
  now rewrite E.
Qed.

Lemma format_fixed_proper p x y :
  (x == y)%Q -> format_fixed p x = format_fixed p y.
Proof.
  intros H. unfold format_fixed.
  rewrite (NumFacts.ltb_eq_l _ _ _ H).
  rewrite (round_half_even_proper
             (Qabs x * inject_Z (10 ^ Z.of_nat p))
             (Qabs y * inject_Z (10 ^ Z.of_nat p))) by now rewrite H.
  reflexivity.
Qed.

(** ** Clipping *)

Lemma clip_nonpositive x : (x <= 0)%Q -> clip x = 0%Q.
Proof.
  intros H. unfold clip. destruct (NumFacts.ltb_spec 0 x); [lra | reflexivity].
Qed.

Lemma clip_positive x : (0 < x)%Q -> clip x = x.
Proof.
  intros H. unfold clip. destruct (NumFacts.ltb_spec 0 x); [reflexivity | lra].
Qed.

Lemma clip_nonnegative x : (0 <= clip x)%Q.
Proof. unfold clip. destruct (NumFacts.ltb_spec 0 x); lra. Qed.

(** What [predict] reports, in terms of the clipped readings. *)
Lemma predict_fields model_flow model_occ model_choice input_data :
  let r := predict model_flow model_occ model_choice input_data in
  let f := clip (model_flow input_data) in
  let o := clip (model_occ input_data) in
  (status_text r, status_color r) = get_traffic_status f o /\
  m1 r = str_of_int (int_of f) +:+ " kendaraan" /\
  m2 r = format_fixed 2 o +:+ " %" /\
  m3 r = model_choice.
Proof.
  unfold predict, clipped_readings.
  destruct (get_traffic_status _ _) as [t c]. simpl. repeat split.
Qed.



(** ** The end-to-end scenario *)

(** A run with a known day, a known detector and the button pressed. *)
Lemma run_pressed load_model model_choice day_input hour_input det_input le
    day_code i :
  day_mapping !! day_input = Some day_code ->
  index_of det_input (classes_ le) = Some i ->
  run load_model model_choice day_input hour_input det_input true le =
    (le, inr (Some (predict (load_model model_choice).1
                            (load_model model_choice).2 model_choice
                            {| hour := hour_input; day_of_week := day_code;
                               detid_code := Z.of_nat i |}))).
Proof.
  intros Hday Hdet. unfold run, day_code_of. rewrite Hday.
  unfold mbind, M_bind, bind, mret, M_ret, ret.
  rewrite (det_code_of_known _ _ _ Hdet).
  now destruct (load_model model_choice).
Qed.

(** The claim as the specification words it fails on the occupancy card: the
    script puts a space between the number and the percent sign, so for the
    predictions 80 and 22 no run shows the text "22.00%". *)
Lemma C5_occupancy_card_counterexample :
  ~ (exists r : report,
       run mock_load_model "Extra Trees" "Rabu" 8 "RDM-12" true mock_encoder
         = (mock_encoder, inr (Some r)) /\
       status_text r = tier_label GridlockTotal /\
       status_color r = "black" /\
       m1 r = "80 kendaraan" /\
       m2 r = "22.00%").
Proof.
  intros (r & Hrun & _ & _ & _ & Hm2).
  vm_compute in Hrun. injection Hrun as <-. discriminate Hm2.
Qed.

(** C5 (amended): on Wednesday at 8 for detector RDM-12, with regressors that
    predict a flow of 80 and an occupancy of 22, the run reports the
    GridlockTotal status in black, the flow card "80 kendaraan" (the integer
    80 and its unit) and the occupancy card "22.00 %": two decimals, a space,
    the percent sign. *)
Theorem C5_end_to_end_scenario
    (load_model : string -> predictor * predictor) (le : LabelEncoder)
    (model_choice : string) :
  "RDM-12" ∈ classes_ le ->
  (forall x, ((load_model model_choice).1 x == 80)%Q) ->
  (forall x, ((load_model model_choice).2 x == 22)%Q) ->
  run load_model model_choice (day_name Wednesday) 8 "RDM-12" true le =
    (le, inr (Some {| m1 := "80 kendaraan";
                      m2 := "22.00 %";
                      m3 := model_choice;
                      status_text := tier_label GridlockTotal;
                      status_color := "black" |})).
Proof.
  intros Hdet Hflow Hocc.
  destruct (index_of_elem _ _ Hdet) as [i Hi].
  rewrite (run_pressed _ _ _ _ _ _ 2%Z i) by (reflexivity || assumption).
  destruct (load_model model_choice) as [model_flow model_occ].
  cbn [fst snd] in *. do 3 f_equal.
  set (input_data := {| hour := 8; day_of_week := 2;
                        detid_code := Z.of_nat i |}).
  specialize (Hflow input_data). specialize (Hocc input_data).
  destruct (predict_fields model_flow model_occ model_choice input_data)
    as (Hst & Hm1 & Hm2 & Hm3).
  rewrite (clip_positive (model_flow input_data)) in Hst, Hm1 by lra.
  rewrite (clip_positive (model_occ input_data)) in Hst, Hm2 by lra.
  rewrite (get_traffic_status_proper _ _ Hflow _ _ Hocc) in Hst.
  rewrite (int_of_proper _ _ Hflow) in Hm1.
  rewrite (format_fixed_proper 2 _ _ Hocc) in Hm2.
  destruct (predict model_flow model_occ model_choice input_data)
    as [a b c d e].
  cbn [m1 m2 m3 status_text status_color] in *.
  injection Hst as -> ->. now subst.
Qed.

Lemma C5_end_to_end_scenario_witness :
  run mock_load_model "Extra Trees" (day_name Wednesday) 8 "RDM-12" true
      mock_encoder =
    (mock_encoder,
     inr (Some {| m1 := "80 kendaraan";
                  m2 := "22.00 %";
                  m3 := "Extra Trees";
                  status_text := tier_label GridlockTotal;
                  status_color := "black" |})).
Proof.
  apply (C5_end_to_end_scenario mock_load_model mock_encoder "Extra Trees").
  - refine (bool_decide_unpack _ _). vm_compute. exact I.
  - intros x. reflexivity.
  - intros x. reflexivity.
Defined.

(** ** The fixed-point presentation on some values *)

Example format_fixed_two_decimals : format_fixed 2 22 = "22.00".
Proof. vm_compute. reflexivity. Qed.

Example format_fixed_tie_to_even_down : format_fixed 2 (1 # 8) = "0.12".
Proof. vm_compute. reflexivity. Qed.

Example format_fixed_tie_to_even_up : format_fixed 2 (3 # 8) = "0.38".
Proof. vm_compute. reflexivity. Qed.

Example format_fixed_clipped_zero : format_fixed 2 (clip (-3 # 7)) = "0.00".
Proof. vm_compute. reflexivity. Qed.

Example int_of_rounds_toward_zero :
  int_of (799 # 10) = 79%Z /\ int_of (-7 # 2) = (-3)%Z.
Proof. split; vm_compute; reflexivity. Qed.

(** * Further properties of the script *)

(** ** The classifier on all flows *)

(** Which tier is returned, for any flow and occupancy. *)
Lemma tier_conditions (flow o : Q) :
  (returns_tier (get_traffic_status flow o) FreeFlow <-> (o < 5)%Q) /\
  (returns_tier (get_traffic_status flow o) Congested <->
     (5 <= o)%Q /\ (o <= 15)%Q) /\
  (returns_tier (get_traffic_status flow o) Jammed <->
     (15 < o)%Q /\ ((100 <= flow)%Q \/ (o <= 20)%Q)) /\
  (returns_tier (get_traffic_status flow o) GridlockTotal <->
     (flow < 100)%Q /\ (20 < o)%Q).
Proof.
  unfold returns_tier, get_traffic_status, override, base_rules.
  cases_on_readings; simpl; repeat split; intros;
    try congruence; try lra;
    repeat match goal with
      | H : _ /\ _ |- _ => destruct H
      | H : _ \/ _ |- _ => destruct H
      end;
    try lra; try (left; lra); try (right; lra).
Qed.

(** X1: the complete decision table of [get_traffic_status], for every flow:
    FreeFlow exactly below 5, Congested exactly from 5 to 15, GridlockTotal
    exactly when the flow is below 100 and the occupancy above 20, and Jammed
    exactly above 15 when that is not the case. *)
Theorem status_decision_table (flow o : Q) :
  (returns_tier (get_traffic_status flow o) FreeFlow <-> (o < 5)%Q) /\
  (returns_tier (get_traffic_status flow o) Congested <->
     (5 <= o)%Q /\ (o <= 15)%Q) /\
  (returns_tier (get_traffic_status flow o) Jammed <->
     (15 < o)%Q /\ ((100 <= flow)%Q \/ (o <= 20)%Q)) /\
  (returns_tier (get_traffic_status flow o) GridlockTotal <->
     (flow < 100)%Q /\ (20 < o)%Q).
Proof. exact (tier_conditions flow o). Qed.

(** X2: the flow is looked at only above an occupancy of 20, and then only
    for the side of 100 it lies on. *)
Theorem flow_matters_only_in_gridlock_band (flow flow' o : Q) :
  (o <= 20)%Q \/ Num.ltb flow 100 = Num.ltb flow' 100 ->
  get_traffic_status flow o = get_traffic_status flow' o.
Proof.
  intros [Ho | Hside]; unfold get_traffic_status, override.
  - apply NumFacts.ltb_ge in Ho. now rewrite Ho, !andb_false_r.
  - now rewrite Hside.
Qed.

Lemma flow_matters_only_in_gridlock_band_witness :
  get_traffic_status 3 20 = get_traffic_status 5000 20.
Proof.
  apply (flow_matters_only_in_gridlock_band 3 5000 20).
  left. unfold Qle. simpl. lia.
Defined.

(** X3: the status never gets milder when the occupancy grows and the flow
    drops: the severity of the tier returned is monotone in the occupancy and
    antitone in the flow. *)
Theorem severity_monotone (flow flow' o o' : Q) (t t' : TrafficStatus) :
  (o <= o')%Q -> (flow' <= flow)%Q ->
  returns_tier (get_traffic_status flow o) t ->
  returns_tier (get_traffic_status flow' o') t' ->
  (severity t <= severity t')%nat.
Proof.
  intros Ho Hf Ht Ht'.
  destruct (tier_conditions flow o) as (F & C & J & G).
  destruct (tier_conditions flow' o') as (F' & C' & J' & G').
  destruct t, t'; simpl; try lia; exfalso;
    repeat match goal with
      | H : returns_tier _ FreeFlow |- _ => apply F in H || apply F' in H
      | H : returns_tier _ Congested |- _ => apply C in H || apply C' in H
      | H : returns_tier _ Jammed |- _ => apply J in H || apply J' in H
      | H : returns_tier _ GridlockTotal |- _ => apply G in H || apply G' in H
      end;
    repeat match goal with
      | H : _ /\ _ |- _ => destruct H
      | H : _ \/ _ |- _ => destruct H
      end; lra.
Qed.

Lemma severity_monotone_witness : (severity Congested <= severity GridlockTotal)%nat.
Proof.
  apply (severity_monotone 150 50 10 25 Congested GridlockTotal).
  - unfold Qle. simpl. lia.
  - unfold Qle. simpl. lia.
  - reflexivity.
  - reflexivity.
Defined.

(** ** Clipping and the classifier *)

(** X4: [max(0, x)] as the script evaluates it is the larger of 0 and [x]: it
    is never negative, it leaves every positive reading as it is (there is no
    upper clipping), and clipping twice changes nothing. *)
Theorem clip_is_max (x : Q) :
  (clip x == Qmax 0 x)%Q /\
  (0 <= clip x)%Q /\
  ((0 < x)%Q \/ clip x = 0%Q) /\
  clip (clip x) = clip x.
Proof.
  destruct (Qlt_le_dec 0 x) as [Hpos | Hneg].
  - rewrite !(clip_positive x Hpos). split; [| split; [| split]].
    + now rewrite Q.max_r by lra.
    + lra.
    + now left.
    + reflexivity.
  - rewrite !(clip_nonpositive x Hneg). split; [| split; [| split]].
    + now rewrite Q.max_l by lra.
    + lra.
    + now right.
    + reflexivity.
Qed.

(** A positive threshold cannot tell a reading from its clipped value. *)
Lemma clip_ltb_threshold x c : (0 < c)%Q -> Num.ltb (clip x) c = Num.ltb x c.
Proof.
  intros Hc. unfold clip. destruct (NumFacts.ltb_spec 0 x); [reflexivity|].
  destruct (NumFacts.ltb_spec 0 c), (NumFacts.ltb_spec x c); try reflexivity; lra.
Qed.

Lemma clip_leb_threshold x c : (0 < c)%Q -> Num.leb (clip x) c = Num.leb x c.
Proof.
  intros Hc. unfold clip. destruct (NumFacts.ltb_spec 0 x); [reflexivity|].
  destruct (NumFacts.leb_spec 0 c), (NumFacts.leb_spec x c); try reflexivity; lra.
Qed.

Lemma threshold_ltb_clip x c : (0 < c)%Q -> Num.ltb c (clip x) = Num.ltb c x.
Proof.
  intros Hc. unfold clip. destruct (NumFacts.ltb_spec 0 x); [reflexivity|].
  destruct (NumFacts.ltb_spec c 0), (NumFacts.ltb_spec c x); try reflexivity; lra.
Qed.

Lemma threshold_leb_clip x c : (0 < c)%Q -> Num.leb c (clip x) = Num.leb c x.
Proof.
  intros Hc. unfold clip. destruct (NumFacts.ltb_spec 0 x); [reflexivity|].
  destruct (NumFacts.leb_spec c 0), (NumFacts.leb_spec c x); try reflexivity; lra.
Qed.

Lemma get_traffic_status_clip (flow o : Q) :
  get_traffic_status (clip flow) (clip o) = get_traffic_status flow o.
Proof.
  unfold get_traffic_status, override, base_rules.
  rewrite !clip_ltb_threshold, !clip_leb_threshold,
          !threshold_ltb_clip, !threshold_leb_clip by reflexivity.
  reflexivity.
Qed.

(** X5: the clipping step never changes the status: all four thresholds are
    positive, so the status and colour a prediction reports are those of the
    classifier on the raw outputs of the regressors.  Clipping only matters
    for the numbers shown. *)
Theorem clipping_preserves_status
    (model_flow model_occ : predictor) (model_choice : string)
    (input_data : features) :
  let r := predict model_flow model_occ model_choice input_data in
  (status_text r, status_color r) =
    get_traffic_status (model_flow input_data) (model_occ input_data).
Proof.
  intros r.
  destruct (predict_fields model_flow model_occ model_choice input_data)
    as (Hst & _).
  fold r in Hst. rewrite Hst. apply get_traffic_status_clip.
Qed.

(** ** The score cards *)

Lemma int_of_nonnegative_floor x : (0 <= x)%Q -> int_of x = Qfloor x.
Proof.
  destruct x as [a b]. unfold Qle, int_of, Qfloor. simpl. intros H.
  apply Z.quot_div_nonneg; lia.
Qed.

(** X6: the flow card shows the clipped flow rounded down to an integer: the
    integer shown is not negative, is at most the clipped prediction and
    misses it by less than one vehicle. *)
Theorem flow_card_rounds_down
    (model_flow model_occ : predictor) (model_choice : string)
    (input_data : features) :
  exists n : Z,
    m1 (predict model_flow model_occ model_choice input_data)
      = str_of_int n +:+ " kendaraan" /\
    (0 <= n)%Z /\
    (inject_Z n <= clip (model_flow input_data))%Q /\
    (clip (model_flow input_data) < inject_Z n + 1)%Q.
Proof.
  destruct (predict_fields model_flow model_occ model_choice input_data)
    as (_ & Hm1 & _).
  set (f := clip (model_flow input_data)) in *.
  assert (Hf : (0 <= f)%Q) by apply clip_nonnegative.
  exists (int_of f). rewrite (int_of_nonnegative_floor f Hf). repeat split.
  - rewrite Hm1, (int_of_nonnegative_floor f Hf). reflexivity.
  - rewrite <- (Qfloor_Z 0). now apply Qfloor_resp_le.
  - apply Qfloor_le.
  - pose proof (Qlt_floor f) as H. rewrite inject_Z_plus in H. exact H.
Qed.

(** X7: when neither regressor predicts anything positive the page shows
    "0 kendaraan", "0.00 %" and the free-flow status in green, whatever the
    magnitudes predicted. *)
Theorem nonpositive_predictions_report
    (model_flow model_occ : predictor) (model_choice : string)
    (input_data : features) :
  (model_flow input_data <= 0)%Q ->
  (model_occ input_data <= 0)%Q ->
  predict model_flow model_occ model_choice input_data =
    {| m1 := "0 kendaraan";
       m2 := "0.00 %";
       m3 := model_choice;
       status_text := tier_label FreeFlow;
       status_color := "green" |}.
Proof.
  intros Hf Ho. unfold predict, clipped_readings.
  rewrite (clip_nonpositive _ Hf), (clip_nonpositive _ Ho). reflexivity.
Qed.

Lemma nonpositive_predictions_report_witness :
  predict (fun _ => 0%Q) (fun _ => (-37 # 10)%Q) "XGBoost"
    {| hour := 23; day_of_week := 6; detid_code := 0 |} =
    {| m1 := "0 kendaraan";
       m2 := "0.00 %";
       m3 := "XGBoost";
       status_text := tier_label FreeFlow;
       status_color := "green" |}.
Proof.
  apply (nonpositive_predictions_report (fun _ => 0%Q)
           (fun _ => (-37 # 10)%Q) "XGBoost"
           {| hour := 23; day_of_week := 6; detid_code := 0 |});
    unfold Qle; simpl; lia.
Defined.

(** ** A run of the script on arbitrary widget values *)

Lemma day_mapping_dom : dom day_mapping = list_to_set day_options.
Proof. vm_compute. reflexivity. Qed.

Lemma day_mapping_lookup_None s : day_mapping !! s = None <-> s ∉ day_options.
Proof.
  rewrite <- not_elem_of_dom, day_mapping_dom, elem_of_list_to_set.
  reflexivity.
Qed.

Lemma day_mapping_lookup_Some s :
  s ∈ day_options <-> exists c, day_mapping !! s = Some c.
Proof.
  destruct (day_mapping !! s) as [c|] eqn:E.
  - split; [now exists c |]. intros _.
    destruct (decide (s ∈ day_options)) as [H|H]; [exact H |].
    apply day_mapping_lookup_None in H. congruence.
  - apply day_mapping_lookup_None in E.
    split; [contradiction | intros [c Hc]; discriminate].
Qed.

(** The four ways a run can go, in the order the script decides them. *)
Lemma run_cases load_model model_choice day_input hour_input det_input
    predict_btn le :
  run load_model model_choice day_input hour_input det_input predict_btn le =
    match day_mapping !! day_input with
    | None => (le, inl (KeyError day_input))
    | Some day_code =>
        match index_of det_input (classes_ le) with
        | None => (le, inl (UnknownDetectorError det_input))
        | Some i =>
            if predict_btn
            then (le, inr (Some (predict (load_model model_choice).1
                                   (load_model model_choice).2 model_choice
                                   {| hour := hour_input;
                                      day_of_week := day_code;
                                      detid_code := Z.of_nat i |})))
            else (le, inr None)
        end
    end.
Proof.
  unfold run, day_code_of.
  destruct (day_mapping !! day_input) as [day_code|]; [| reflexivity].
  unfold mbind, M_bind, bind, mret, M_ret, ret.
  destruct (index_of det_input (classes_ le)) as [i|] eqn:E.
  - rewrite (det_code_of_known _ _ _ E).
    destruct predict_btn; [| reflexivity].
    now destruct (load_model model_choice).
  - now rewrite (det_code_of_unknown _ _ E).
Qed.

(** X8: a day that is not one of the seven options makes the run raise
    [KeyError] on that day, before the detector is looked at, whether or not
    the button was pressed and whatever the models are. *)
Theorem run_unknown_day load_model model_choice day_input hour_input
    det_input predict_btn le :
  day_input ∉ day_options ->
  run load_model model_choice day_input hour_input det_input predict_btn le
    = (le, inl (KeyError day_input)).
Proof.
  intros H. apply day_mapping_lookup_None in H.
  rewrite run_cases, H. reflexivity.
Qed.

Lemma run_unknown_day_witness :
  run mock_load_model "XGBoost" "Monday" 8 "RDM-99" false mock_encoder
    = (mock_encoder, inl (KeyError "Monday")).
Proof.
  apply (run_unknown_day mock_load_model "XGBoost" "Monday" 8 "RDM-99" false
           mock_encoder).
  refine (bool_decide_unpack _ _). vm_compute. exact I.
Defined.

(** X9: with a valid day, a detector the encoder does not know makes the run
    raise [UnknownDetectorError], also when the button was not pressed: the
    side bar encodes its selections on every run. *)
Theorem run_unknown_detector load_model model_choice day_input hour_input
    det_input predict_btn le :
  day_input ∈ day_options ->
  det_input ∉ classes_ le ->
  run load_model model_choice day_input hour_input det_input predict_btn le
    = (le, inl (UnknownDetectorError det_input)).
Proof.
  intros Hday Hdet. apply day_mapping_lookup_Some in Hday as [c Hc].
  apply index_of_None in Hdet. rewrite run_cases, Hc, Hdet. reflexivity.
Qed.

Lemma run_unknown_detector_witness :
  run mock_load_model "XGBoost" "Jumat" 8 "RDM-99" false mock_encoder
    = (mock_encoder, inl (UnknownDetectorError "RDM-99")).
Proof.
  apply (run_unknown_detector mock_load_model "XGBoost" "Jumat" 8 "RDM-99"
           false mock_encoder).
  - refine (bool_decide_unpack _ _). vm_compute. exact I.
  - refine (bool_decide_unpack _ _). vm_compute. exact I.
Defined.

(** No run writes to the encoder, whether it ends with a page or with an
    exception. *)
Lemma run_keeps_encoder load_model model_choice day_input hour_input
    det_input predict_btn le :
  (run load_model model_choice day_input hour_input det_input predict_btn
       le).1 = le.
Proof.
  rewrite run_cases.
  destruct (day_mapping !! day_input); [| reflexivity].
  destruct (index_of det_input (classes_ le)); [| reflexivity].
  now destruct predict_btn.
Qed.


(** ** Loading the artifacts *)

Lemma remove_spaces_no_space s :
  " "%char ∉ list_ascii_of_string (Loader.remove_spaces s).
Proof.
  induction s as [|c s IH]; simpl.
  - apply not_elem_of_nil.
  - destruct (Ascii.eqb_spec c " ") as [->|Hne]; [exact IH |].
    simpl. apply not_elem_of_cons. split; [congruence | exact IH].
Qed.

Lemma remove_spaces_fixed s :
  " "%char ∉ list_ascii_of_string s -> Loader.remove_spaces s = s.
Proof.
  induction s as [|c s IH]; simpl; [reflexivity |].
  intros H. apply not_elem_of_cons in H as [Hc Hs].
  destruct (Ascii.eqb_spec c " ") as [->|_]; [congruence |].
  now rewrite (IH Hs).
Qed.

(** X12: the name under which the model files are looked up holds no space
    and is never longer than the model name; it is the model name itself
    exactly when that has no space, so cleaning a clean name changes
    nothing. *)
Theorem remove_spaces_clean (s : string) :
  (" "%char ∉ list_ascii_of_string (Loader.remove_spaces s)) /\
  (String.length (Loader.remove_spaces s) <= String.length s)%nat /\
  (Loader.remove_spaces s = s <-> " "%char ∉ list_ascii_of_string s) /\
  Loader.remove_spaces (Loader.remove_spaces s) = Loader.remove_spaces s.
Proof.
  split; [apply remove_spaces_no_space |].
  split; [| split].
  - induction s as [|c s IH]; simpl; [lia |].
    destruct (Ascii.eqb c " "); simpl; lia.
  - split; [| apply remove_spaces_fixed].
    intros H. rewrite <- H. apply remove_spaces_no_space.
  - apply remove_spaces_fixed, remove_spaces_no_space.
Qed.

(** X13: the four model choices name eight files, all different from each
    other and from the file of the encoder, so no two choices share a
    regressor. *)
Theorem model_paths_distinct :
  flat_map (fun m => [Loader.flow_path m; Loader.occ_path m]) model_options =
    ["models/ExtraTrees_flow.pkl"; "models/ExtraTrees_occ.pkl";
     "models/XGBoost_flow.pkl"; "models/XGBoost_occ.pkl";
     "models/LightGBM_flow.pkl"; "models/LightGBM_occ.pkl";
     "models/PolynomialReg_flow.pkl"; "models/PolynomialReg_occ.pkl"] /\
  NoDup (Loader.encoder_path ::
         flat_map (fun m => [Loader.flow_path m; Loader.occ_path m])
           model_options).
Proof.
  split; [reflexivity |].
  refine (bool_decide_unpack _ _). vm_compute. exact I.
Qed.

(** X14: spaces in a model name make no difference to what is loaded: a name
    and its cleaned form give the same regressors or the same exception. *)
Theorem load_model_ignores_spaces (dir : Loader.models_dir) (m : string) :
  Loader.load_model dir (Loader.remove_spaces m) = Loader.load_model dir m.
Proof.
  unfold Loader.load_model, Loader.flow_path, Loader.occ_path.
  assert (E : Loader.remove_spaces (Loader.remove_spaces m)
              = Loader.remove_spaces m)
    by apply remove_spaces_fixed, remove_spaces_no_space.
  now rewrite E.
Qed.

(** The loader on a folder, case by case. *)
Lemma load_model_cases dir m :
  Loader.load_model dir m =
    match Loader.regressor_files dir !! Loader.flow_path m with
    | None => inl (Loader.FileNotFoundError (Loader.flow_path m))
    | Some model_flow =>
        match Loader.regressor_files dir !! Loader.occ_path m with
        | None => inl (Loader.FileNotFoundError (Loader.occ_path m))
        | Some model_occ => inr (model_flow, model_occ)
        end
    end.
Proof.
  unfold Loader.load_model, Loader.joblib_load.
  destruct (Loader.regressor_files dir !! Loader.flow_path m); [| reflexivity].
  now destruct (Loader.regressor_files dir !! Loader.occ_path m).
Qed.

(** ** The script from its first line *)

(** X15: without the encoder file the script stops under the banner of the
    [except] branch, whatever the widgets hold and whatever else is in the
    folder: nothing after the [try] statement is evaluated, so not even an
    invalid day or detector raises. *)
Theorem script_stops_without_encoder (dir : Loader.models_dir)
    (model_choice day_input : string) (hour_input : Z) (det_input : string)
    (predict_btn : bool) :
  Loader.encoder_files dir !! Loader.encoder_path = None ->
  Loader.script dir model_choice day_input hour_input det_input predict_btn
    = Loader.Stopped Loader.missing_models_banner.
Proof.
  intros H. unfold Loader.script, Loader.load_resources, Loader.joblib_load.
  now rewrite H.
Qed.

Lemma script_stops_without_encoder_witness :
  Loader.script
    {| Loader.encoder_files := ∅;
       Loader.regressor_files := Loader.regressor_files Loader.mock_dir |}
    "Extra Trees" "Monday" 8 "RDM-99" true
    = Loader.Stopped Loader.missing_models_banner.
Proof.
  apply (script_stops_without_encoder
           {| Loader.encoder_files := ∅;
              Loader.regressor_files :=
                Loader.regressor_files Loader.mock_dir |}
           "Extra Trees" "Monday" 8 "RDM-99" true).
  reflexivity.
Defined.

(** X16: once the encoder is loaded, the script is the run of the side bar and
    the main page on that encoder: it raises what the run raises and draws
    what the run draws, for any loader that hands out the regressors the
    folder holds for the chosen model.  Until the button is pressed the model
    files need not even exist. *)
Theorem script_is_run (dir : Loader.models_dir) (le : LabelEncoder)
    (load_model : string -> predictor * predictor)
    (model_choice day_input : string) (hour_input : Z) (det_input : string)
    (predict_btn : bool) :
  Loader.encoder_files dir !! Loader.encoder_path = Some le ->
  (predict_btn = false \/
   Loader.load_model dir model_choice = inr (load_model model_choice)) ->
  Loader.script dir model_choice day_input hour_input det_input predict_btn =
    match run load_model model_choice day_input hour_input det_input
              predict_btn le with
    | (_, inl e) => Loader.Raised (Loader.Encoding e)
    | (_, inr page) => Loader.Page page
    end.
Proof.
  intros Henc Hmodels. rewrite run_cases.
  unfold Loader.script, Loader.load_resources, Loader.joblib_load.
  rewrite Henc. unfold day_code_of.
  destruct (day_mapping !! day_input) as [day_code|]; [| reflexivity].
  unfold mbind, M_bind, bind, mret, M_ret, ret.
  destruct (index_of det_input (classes_ le)) as [i|] eqn:E.
  - rewrite (det_code_of_known _ _ _ E).
    destruct predict_btn; [| reflexivity].
    destruct Hmodels as [Hbtn | Hload]; [discriminate |].
    rewrite Hload. now destruct (load_model model_choice).
  - now rewrite (det_code_of_unknown _ _ E).
Qed.

Lemma script_is_run_witness :
  Loader.script Loader.mock_dir "Extra Trees" "Rabu" 8 "RDM-12" true =
    match run mock_load_model "Extra Trees" "Rabu" 8 "RDM-12" true
              mock_encoder with
    | (_, inl e) => Loader.Raised (Loader.Encoding e)
    | (_, inr page) => Loader.Page page
    end.
Proof.
  apply (script_is_run Loader.mock_dir mock_encoder mock_load_model
           "Extra Trees" "Rabu" 8 "RDM-12" true).
  - reflexivity.
  - right. reflexivity.
Defined.

(** X17: a missing regressor file is not caught: with the encoder loaded, a
    valid day and a known detector, pressing the button for a model whose
    flow file is absent, or whose occupancy file is absent, ends the script
    with [FileNotFoundError] on that file and not under the banner. *)
Theorem script_missing_model_raises (dir : Loader.models_dir)
    (le : LabelEncoder) (model_choice day_input : string) (hour_input : Z)
    (det_input : string) (path : string) :
  Loader.encoder_files dir !! Loader.encoder_path = Some le ->
  day_input ∈ day_options ->
  det_input ∈ classes_ le ->
  ((Loader.regressor_files dir !! Loader.flow_path model_choice = None /\
    path = Loader.flow_path model_choice) \/
   (is_Some (Loader.regressor_files dir !! Loader.flow_path model_choice) /\
    Loader.regressor_files dir !! Loader.occ_path model_choice = None /\
    path = Loader.occ_path model_choice)) ->
  Loader.script dir model_choice day_input hour_input det_input true =
    Loader.Raised (Loader.Loading (Loader.FileNotFoundError path)).
Proof.
  intros Henc Hday Hdet Hmiss.
  apply day_mapping_lookup_Some in Hday as [c Hc].
  apply index_of_elem in Hdet as [i Hi].
  unfold Loader.script, Loader.load_resources, Loader.joblib_load.
  rewrite Henc. unfold day_code_of. rewrite Hc.
  unfold mbind, M_bind, bind, mret, M_ret, ret.
  rewrite (det_code_of_known _ _ _ Hi), load_model_cases.
  destruct Hmiss as [[Hflow ->] | ([mf Hflow] & Hocc & ->)].
  - now rewrite Hflow.
  - now rewrite Hflow, Hocc.
Qed.

Lemma script_missing_model_raises_witness :
  Loader.script Loader.mock_dir "XGBoost" "Rabu" 8 "RDM-12" true =
    Loader.Raised
      (Loader.Loading (Loader.FileNotFoundError "models/XGBoost_flow.pkl")).
Proof.
  apply (script_missing_model_raises Loader.mock_dir mock_encoder "XGBoost"
           "Rabu" 8 "RDM-12" "models/XGBoost_flow.pkl").
  - reflexivity.
  - refine (bool_decide_unpack _ _). vm_compute. exact I.
  - refine (bool_decide_unpack _ _). vm_compute. exact I.
  - left. split; reflexivity.
Defined.

(** ** What the rounded numbers show *)

Lemma Qfloor_between (z : Z) (y : Q) :
  (inject_Z z <= y)%Q -> (y < inject_Z z + 1)%Q -> Qfloor y = z.
Proof.
  intros Hlo Hhi.
  assert (H1 : (z <= Qfloor y)%Z).
  { rewrite <- (Qfloor_Z z). now apply Qfloor_resp_le. }
  assert (H2 : (Qfloor y < z + 1)%Z).
  { rewrite Zlt_Qlt, inject_Z_plus.
    apply Qle_lt_trans with y; [apply Qfloor_le | exact Hhi]. }
  lia.
Qed.

(** The rounding misses its argument by at most one half. *)
Lemma round_half_even_near (x : Q) :
  (inject_Z (round_half_even x) - (1 # 2) <= x)%Q /\
  (x <= inject_Z (round_half_even x) + (1 # 2))%Q.
Proof.
  unfold round_half_even.
  pose proof (Qfloor_le x) as Hlo. pose proof (Qlt_floor x) as Hhi.
  rewrite inject_Z_plus in Hhi. change (inject_Z 1) with 1%Q in Hhi.
  destruct (Qcompare (x - inject_Z (Qfloor x)) (1 # 2)) eqn:E.
  - apply Qeq_alt in E. destruct (Z.even (Qfloor x));
      rewrite ?inject_Z_plus; change (inject_Z 1) with 1%Q; lra.
  - apply Qlt_alt in E. lra.
  - apply Qgt_alt in E. rewrite inject_Z_plus.
    change (inject_Z 1) with 1%Q. lra.
Qed.

(** In the upper half of a unit interval that starts at an odd integer, the
    midpoint included, the rounding goes up. *)
Lemma round_half_even_upper_half (z : Z) (y : Q) :
  Z.even z = false ->
  (inject_Z z + (1 # 2) <= y)%Q -> (y < inject_Z z + 1)%Q ->
  round_half_even y = (z + 1)%Z.
Proof.
  intros Hodd Hlo Hhi. unfold round_half_even.
  rewrite (Qfloor_between z y) by lra. rewrite Hodd.
  destruct (Qcompare (y - inject_Z z) (1 # 2)) eqn:E; try reflexivity.
  apply Qlt_alt in E. lra.
Qed.

Lemma round_half_even_nonnegative (x : Q) :
  (0 <= x)%Q -> (0 <= round_half_even x)%Z.
Proof.
  intros Hx. destruct (round_half_even_near x) as [_ Hhi].
  assert (H : (-1 < round_half_even x)%Z).
  { rewrite Zlt_Qlt. change (inject_Z (-1)) with (-1)%Q. lra. }
  lia.
Qed.

(** X18: the occupancy card shows no sign and the number of hundredths
    nearest to the clipped occupancy: what is printed is off by at most half
    a hundredth. *)
Theorem occupancy_card_nearest_hundredth
    (model_flow model_occ : predictor) (model_choice : string)
    (input_data : features) :
  exists n : Z,
    m2 (predict model_flow model_occ model_choice input_data) =
      (str_of_int (n / 100) +:+ "." +:+ zfill 2 (str_of_int (n mod 100)))
      +:+ " %" /\
    (0 <= n)%Z /\
    (inject_Z n - (1 # 2) <= 100 * clip (model_occ input_data))%Q /\
    (100 * clip (model_occ input_data) <= inject_Z n + (1 # 2))%Q.
Proof.
  destruct (predict_fields model_flow model_occ model_choice input_data)
    as (_ & _ & Hm2 & _).
  set (o := clip (model_occ input_data)) in *.
  assert (Ho : (0 <= o)%Q) by apply clip_nonnegative.
  assert (E : round_half_even (Qabs o * inject_Z (10 ^ Z.of_nat 2))
              = round_half_even (100 * o)).
  { apply round_half_even_proper. rewrite (Qabs_pos o Ho).
    change (inject_Z (10 ^ Z.of_nat 2)) with 100%Q. ring. }
  exists (round_half_even (100 * o)). split; [| split].
  - rewrite Hm2. unfold format_fixed. rewrite E.
    destruct (NumFacts.ltb_spec o 0) as [Hneg|_]; [lra |].
    reflexivity.
  - apply round_half_even_nonnegative. lra.
  - apply round_half_even_near.
Qed.

(** X19: rounding for display can contradict the status next to it: for an
    occupancy from 4.995 up to, but not reaching, 5 the page says free flow,
    the rule for occupancies below 5, while the occupancy card reads
    "5.00 %" and the interpretation paragraph shows "5.0", the very text it
    shows for an occupancy of 5. *)
Theorem display_rounds_across_threshold
    (model_flow model_occ : predictor) (model_choice : string)
    (input_data : features) (day_input det_input : string) (hour_input : Z) :
  (4995 # 1000 <= model_occ input_data)%Q ->
  (model_occ input_data < 5)%Q ->
  let r := predict model_flow model_occ model_choice input_data in
  let pred_occ := clip (model_occ input_data) in
  status_text r = tier_label FreeFlow /\
  m2 r = "5.00 %" /\
  format_fixed 1 pred_occ = "5.0" /\
  interpretation day_input hour_input det_input model_choice pred_occ =
    interpretation day_input hour_input det_input model_choice 5.
Proof.
  intros Hlo Hhi r pred_occ.
  destruct (predict_fields model_flow model_occ model_choice input_data)
    as (Hst & _ & Hm2 & _).
  fold r in Hst, Hm2. fold pred_occ in Hst, Hm2.
  assert (Hpos : pred_occ = model_occ input_data)
    by (apply clip_positive; lra).
  rewrite Hpos in *. clear Hpos pred_occ.
  set (o := model_occ input_data) in *.
  assert (Hneg : Num.ltb o 0 = false) by (apply NumFacts.ltb_ge; lra).
  assert (Habs : (Qabs o == o)%Q) by (apply Qabs_pos; lra).
  assert (Hone : format_fixed 1 o = "5.0").
  { unfold format_fixed. rewrite Hneg.
    rewrite (round_half_even_upper_half 49); try reflexivity.
    - rewrite Habs. change (inject_Z 49) with 49%Q.
      change (inject_Z (10 ^ Z.of_nat 1)) with 10%Q. lra.
    - rewrite Habs. change (inject_Z 49) with 49%Q.
      change (inject_Z (10 ^ Z.of_nat 1)) with 10%Q. lra. }
  split; [| split; [| split]].
  - destruct (tier_conditions (clip (model_flow input_data)) o)
      as (F & _).
    assert (Ht : returns_tier (status_text r, status_color r) FreeFlow)
      by (rewrite Hst; now apply F).
    exact Ht.
  - rewrite Hm2. unfold format_fixed. rewrite Hneg.
    rewrite (round_half_even_upper_half 499); try reflexivity.
    + rewrite Habs. change (inject_Z 499) with 499%Q.
      change (inject_Z (10 ^ Z.of_nat 2)) with 100%Q. lra.
    + rewrite Habs. change (inject_Z 499) with 499%Q.
      change (inject_Z (10 ^ Z.of_nat 2)) with 100%Q. lra.
  - exact Hone.
  - unfold interpretation. now rewrite Hone.
Qed.

Lemma display_rounds_across_threshold_witness :
  let r := predict (fun _ => 640%Q) (fun _ => (4997 # 1000)%Q) "LightGBM"
             {| hour := 7; day_of_week := 0; detid_code := 1 |} in
  let pred_occ := clip (4997 # 1000) in
  status_text r = tier_label FreeFlow /\
  m2 r = "5.00 %" /\
  format_fixed 1 pred_occ = "5.0" /\
  interpretation "Senin" 7 "RDM-12" "LightGBM" pred_occ =
    interpretation "Senin" 7 "RDM-12" "LightGBM" 5.
Proof.
  apply (display_rounds_across_threshold (fun _ => 640%Q)
           (fun _ => (4997 # 1000)%Q) "LightGBM"
           {| hour := 7; day_of_week := 0; detid_code := 1 |}
           "Senin" "RDM-12" 7).
  - unfold Qle. simpl. lia.
  - unfold Qlt. simpl. lia.
Defined.

(** ** When the script draws its page *)



